(** * lcx-api: the public REST client

    A shallow embedding of [PublicRestClient] (the class with the seven
    public market-data operations and its two private helpers), of the
    declarations it uses and of its test suite, followed by the properties
    of the client.

    TypeScript types are erased when the program runs, so the values that
    cross the transport boundary (query parameters, response bodies, rejection
    reasons) are JavaScript values, and an operation receives the object of
    its caller as it is. *)

From Stdlib Require Import String List ZArith Lia Bool.
From Stdlib Require Import Floats.PrimFloat.
From Stdlib Require Import DecimalString.
Import ListNotations.
Local Open Scope string_scope.
Local Open Scope Z_scope.

Set Implicit Arguments.
Local Set Warnings "-register-all".

(* ===================================================================== *)
(** ** JavaScript values *)
(* ===================================================================== *)

(** [number] is an IEEE 754 double, as in JavaScript. *)
Definition number : Type := float.

(** The number of an integer: exact for the integers a double holds. *)
Fixpoint positive_to_number (p : positive) : number :=
  match p with
  | xH => 1%float
  | xO q => (2 * positive_to_number q)%float
  | xI q => (2 * positive_to_number q + 1)%float
  end.

Definition Z_to_number (z : Z) : number :=
  match z with
  | Z0 => 0%float
  | Zpos p => positive_to_number p
  | Zneg p => (- positive_to_number p)%float
  end.

(** A JavaScript value. An object is its list of own properties, in
    insertion order. *)
Inductive JsValue : Type :=
| JsUndefined
| JsNull
| JsBoolean (b : bool)
| JsNumber (n : number)
| JsString (s : string)
| JsArray (items : list JsValue)
| JsObject (props : list (string * JsValue)).

(** [o[key]] on a property list: the first property of that name. *)
Fixpoint lookup_prop (key : string) (props : list (string * JsValue))
  : option JsValue :=
  match props with
  | [] => None
  | (k, v) :: rest => if String.eqb k key then Some v else lookup_prop key rest
  end.

(** [v.key]: reading a property that is absent gives [undefined]. *)
Definition get_prop (v : JsValue) (key : string) : JsValue :=
  match v with
  | JsObject props =>
      match lookup_prop key props with
      | Some x => x
      | None => JsUndefined
      end
  | _ => JsUndefined
  end.

(** The own property names of a value. *)
Definition own_keys (v : JsValue) : list string :=
  match v with
  | JsObject props => map fst props
  | _ => []
  end.

(** [a ?? b]: [b] when [a] is absent. An optional field or argument that
    was not given is [None]. *)
Definition nullish {A : Type} (a : option A) (b : A) : A :=
  match a with
  | Some x => x
  | None => b
  end.

Notation "a ?? b" := (nullish a b) (at level 45, left associativity).

(* ===================================================================== *)
(** ** Declarations of the market-data API *)
(* ===================================================================== *)

(** The string literals of [KlineTimeframe], all supported kline
    timeframes. *)
Definition KlineTimeframe : list string :=
  ["1"; "3"; "5"; "15"; "30"; "45"; "60"; "120"; "180"; "240";
   "1D"; "1W"; "1M"].

(** The interfaces of the request parameters ([OrderbookRequestParams],
    [KlineRequestParams], [TradeRequestParams], [PairRequestParams] and
    [TickerRequestParams]) annotate the parameter of an operation. Nothing
    of them is left when the program runs: the operation is handed the
    object of its caller, with the keys in the order the caller wrote them
    and with whatever else the object holds. *)

(** The response envelope, [ApiResponse<DataType>]. *)
Module ApiResponse.
Record t (DataType : Type) : Type :=
    { data : DataType;
      count : option number;
      message : string;
      status : string }.

  (** Reading a JavaScript value at the interface: an object whose
      [message] and [status] are strings, whose [count] is a number or is
      absent, and that has a [data] property. The payload is kept as it
      is. *)
Definition of_js (v : JsValue) : option (t JsValue) :=
    match v with
    | JsObject props =>
        match lookup_prop "data" props,
              get_prop v "message", get_prop v "status" with
        | Some d, JsString m, JsString s =>
            match get_prop v "count" with
            | JsUndefined => Some {| data := d; count := None;
                                     message := m; status := s |}
            | JsNumber c => Some {| data := d; count := Some c;
                                    message := m; status := s |}
            | _ => None
            end
        | _, _, _ => None
        end
    | _ => None
    end.
End ApiResponse.

(** [PublicRestClientConfig]: both URLs are optional. *)
Module PublicRestClientConfig.
Record t : Type :=
    { baseUrl : option string;
      klineUrl : option string }.
End PublicRestClientConfig.

(* ===================================================================== *)
(** ** The transport: what the client sees of axios *)
(* ===================================================================== *)

(** The request configuration handed to [axiosInstance.get]. *)
Module AxiosRequestConfig.
Record t : Type :=
    { method : string;
      baseURL : string;
      headers : list (string * string);
      params : JsValue }.
End AxiosRequestConfig.

(** The response object axios resolves with. The status code of an HTTP
    response is an integer. *)
Module AxiosResponse.
Record t : Type :=
    { data : JsValue;
      status : Z;
      statusText : string;
      headers : list (string * string);
      config : AxiosRequestConfig.t }.
End AxiosResponse.

(** An axios instance, known by the defaults it was created with
    ([None]: created without defaults). *)
Module AxiosInstance.
Record t : Type := { defaults : option JsValue }.
End AxiosInstance.

(** [axios.create(axiosConfig)]. *)
Definition axios_create (axiosConfig : option JsValue) : AxiosInstance.t :=
  {| AxiosInstance.defaults := axiosConfig |}.

(** One call [instance.get(url, config)]. *)
Module Request.
Record t : Type :=
    { instance : AxiosInstance.t;
      url : string;
      config : AxiosRequestConfig.t }.
End Request.

(** How the promise returned by [instance.get] settles. *)
Inductive Settled : Type :=
| Fulfilled (response : AxiosResponse.t)
| Rejected (reason : JsValue).

(** A thrown value: the client throws response objects, and whatever the
    transport rejects with passes through an [await]. *)
Inductive Thrown : Type :=
| ThrownResponse (response : AxiosResponse.t)
| ThrownReason (reason : JsValue).


(** *** axios with its defaults

    axios is a dependency of the client and not part of it. The client
    makes its instance with [axios.create(axiosConfig)] and gives the
    requests no [validateStatus], so unless the caller's [axiosConfig]
    brings one, the default of axios decides which responses fulfil the
    promise. What follows is that default, as axios 1 settles a response. *)

(** The default [validateStatus]: [status >= 200 && status < 300]. *)
Definition default_validateStatus (status : Z) : bool :=
  (200 <=? status) && (status <? 300).

(** The objects of a request config and of a response. *)
Definition headers_object (h : list (string * string)) : JsValue :=
  JsObject (map (fun kv => (fst kv, JsString (snd kv))) h).

Definition AxiosRequestConfig_object (c : AxiosRequestConfig.t) : JsValue :=
  JsObject [("method", JsString (AxiosRequestConfig.method c));
            ("baseURL", JsString (AxiosRequestConfig.baseURL c));
            ("headers", headers_object (AxiosRequestConfig.headers c));
            ("params", AxiosRequestConfig.params c)].

Definition AxiosResponse_object (r : AxiosResponse.t) : JsValue :=
  JsObject [("data", AxiosResponse.data r);
            ("status", JsNumber (Z_to_number (AxiosResponse.status r)));
            ("statusText", JsString (AxiosResponse.statusText r));
            ("headers", headers_object (AxiosResponse.headers r));
            ("config", AxiosRequestConfig_object (AxiosResponse.config r))].

(** The code of the error:
    [[ERR_BAD_REQUEST, ERR_BAD_RESPONSE][Math.floor(status / 100) - 4]],
    which is [undefined] outside 400..599. *)
Definition AxiosError_code (status : Z) : option string :=
  match status / 100 - 4 with
  | 0 => Some "ERR_BAD_REQUEST"
  | 1 => Some "ERR_BAD_RESPONSE"
  | _ => None
  end.

(** The [AxiosError] made for a response that is not accepted: message,
    name, code where there is one, the response, and its status. The
    properties [config], [request] and [stack], which say what was sent and
    from where, are left out. *)
Definition AxiosError (response : AxiosResponse.t) : JsValue :=
  JsObject
    ([("message",
       JsString ("Request failed with status code "
                 ++ NilZero.string_of_int
                      (Z.to_int (AxiosResponse.status response))));
      ("name", JsString "AxiosError")]
     ++ match AxiosError_code (AxiosResponse.status response) with
        | Some code => [("code", JsString code)]
        | None => []
        end
     ++ [("response", AxiosResponse_object response);
         ("status",
          JsNumber (Z_to_number (AxiosResponse.status response)))])%list.

(** [settle]: the promise is fulfilled with the response when
    [!response.status || validateStatus(response.status)], and rejected
    with the error otherwise. *)
Definition axios_resolves (response : AxiosResponse.t) : bool :=
  (AxiosResponse.status response =? 0)
  || default_validateStatus (AxiosResponse.status response).

Definition axios_settle (response : AxiosResponse.t) : Settled :=
  if axios_resolves response
  then Fulfilled response
  else Rejected (AxiosError response).

(** How a call ends: it returns a value or throws one (for an [async]
    method: the promise is fulfilled or rejected). *)
Inductive Completion (A : Type) : Type :=
| Returns (a : A)
| Throws (e : Thrown).

Arguments Throws {A} e.

(** An asynchronous computation: it is finished, or it waits for the
    transport to settle a request and goes on from the answer. *)
Inductive Async (A : Type) : Type :=
| Done (a : A)
| AxiosGet (req : Request.t) (k : Settled -> Async A).

Arguments AxiosGet {A} req k.

Fixpoint Async_bind {A B : Type} (m : Async A) (f : A -> Async B) : Async B :=
  match m with
  | Done a => f a
  | AxiosGet req k => AxiosGet req (fun s => Async_bind (k s) f)
  end.

(* ===================================================================== *)
(** ** The client *)
(* ===================================================================== *)

(** The fields of a [PublicRestClient] object. *)
Module PublicRestClient.
Record t : Type :=
  { config : PublicRestClientConfig.t;
    axiosInstance : AxiosInstance.t;
    baseUrl : string;
    klineUrl : string }.
End PublicRestClient.

(** The object literal [defaultConfig] of the constructor: both fields
    are present. *)
Module DefaultConfig.
Record t : Type := { baseUrl : string; klineUrl : string }.

(** The literal seen at the type [PublicRestClientConfig]. *)
Definition as_config (d : t) : PublicRestClientConfig.t :=
  {| PublicRestClientConfig.baseUrl := Some (baseUrl d);
     PublicRestClientConfig.klineUrl := Some (klineUrl d) |}.
End DefaultConfig.

(** [new PublicRestClient(config, axiosConfig)]; an argument that is
    left out is [None]. *)
Definition constructor (config : option PublicRestClientConfig.t)
    (axiosConfig : option JsValue) : PublicRestClient.t :=
  let defaultConfig :=
    {| DefaultConfig.baseUrl := "https://exchange-api.lcx.com/";
       DefaultConfig.klineUrl := "https://api-kline.lcx.com/" |} in
  let this_config := config ?? DefaultConfig.as_config defaultConfig in
  {| PublicRestClient.config := this_config;
     PublicRestClient.axiosInstance := axios_create axiosConfig;
     PublicRestClient.baseUrl :=
       PublicRestClientConfig.baseUrl this_config
         ?? DefaultConfig.baseUrl defaultConfig;
     PublicRestClient.klineUrl :=
       PublicRestClientConfig.klineUrl this_config
         ?? DefaultConfig.klineUrl defaultConfig |}.

(** A method of the client: it runs on the object [this], may wait for
    the transport, ends by returning or throwing, and leaves an object
    behind. *)
Definition Method (A : Type) : Type :=
  PublicRestClient.t -> Async (Completion A * PublicRestClient.t).

Definition ret {A : Type} (a : A) : Method A :=
  fun this => Done (Returns a, this).

Definition throw {A : Type} (e : Thrown) : Method A :=
  fun this => Done (Throws e, this).

(** Sequencing: a throw ends the method, with the object as it is at that
    point. *)
Definition bind {A B : Type} (m : Method A) (f : A -> Method B) : Method B :=
  fun this =>
    Async_bind (m this)
      (fun r =>
         match r with
         | (Returns a, this') => f a this'
         | (Throws e, this') => Done (Throws e, this')
         end).

(** Reading the object. *)
Definition get_this : Method PublicRestClient.t :=
  fun this => Done (Returns this, this).

(** Assigning to the object. *)
Definition set_this (this' : PublicRestClient.t) : Method unit :=
  fun _ => Done (Returns tt, this').

(** [await instance.get(url, config)]: the response when the promise is
    fulfilled; a rejection is thrown at the [await]. *)
Definition await_get (instance : AxiosInstance.t) (url : string)
    (config : AxiosRequestConfig.t) : Method AxiosResponse.t :=
  fun this =>
    AxiosGet {| Request.instance := instance;
                Request.url := url;
                Request.config := config |}
      (fun s =>
         match s with
         | Fulfilled response => Done (Returns response, this)
         | Rejected reason => Done (Throws (ThrownReason reason), this)
         end).

Declare Scope method_scope.
Delimit Scope method_scope with method.
Notation "x <- m ;; k" := (bind m (fun x => k))
  (at level 61, m at next level, right associativity) : method_scope.
Local Open Scope method_scope.

(** [getWithBaseUrl(path, params)]; [params] left out is [undefined]. *)
Definition getWithBaseUrl (path : string) (params : JsValue) : Method JsValue :=
  this <- get_this ;;
  axiosResponse <-
    await_get (PublicRestClient.axiosInstance this) path
      {| AxiosRequestConfig.method := "get";
         AxiosRequestConfig.baseURL := PublicRestClient.baseUrl this;
         AxiosRequestConfig.headers := [("Content-Type", "application/json")];
         AxiosRequestConfig.params := params |} ;;
  if AxiosResponse.status axiosResponse =? 200
  then ret (AxiosResponse.data axiosResponse)
  else throw (ThrownResponse axiosResponse).

(** [getWithKlineUrl(path, params)]. *)
Definition getWithKlineUrl (path : string) (params : JsValue) : Method JsValue :=
  this <- get_this ;;
  axiosResponse <-
    await_get (PublicRestClient.axiosInstance this) path
      {| AxiosRequestConfig.method := "get";
         AxiosRequestConfig.baseURL := PublicRestClient.klineUrl this;
         AxiosRequestConfig.headers := [("Content-Type", "application/json")];
         AxiosRequestConfig.params := params |} ;;
  if AxiosResponse.status axiosResponse =? 200
  then ret (AxiosResponse.data axiosResponse)
  else throw (ThrownResponse axiosResponse).

(** The seven public operations. [params] is the object of the caller. *)
Definition getOrderbook (params : JsValue) : Method JsValue :=
  getWithBaseUrl "/api/book" params.

Definition getKline (params : JsValue) : Method JsValue :=
  getWithKlineUrl "/v1/market/kline" params.

Definition getTrades (params : JsValue) : Method JsValue :=
  getWithBaseUrl "/api/trades" params.

Definition getPairs : Method JsValue :=
  getWithBaseUrl "/api/pairs" JsUndefined.

Definition getPair (params : JsValue) : Method JsValue :=
  getWithBaseUrl "/api/pair" params.

Definition getTickers : Method JsValue :=
  getWithBaseUrl "/api/tickers" JsUndefined.

Definition getTicker (params : JsValue) : Method JsValue :=
  getWithBaseUrl "/api/ticker" params.

(** A call of a public operation with its arguments. *)
Inductive Call : Type :=
| CallGetOrderbook (params : JsValue)
| CallGetKline (params : JsValue)
| CallGetTrades (params : JsValue)
| CallGetPairs
| CallGetPair (params : JsValue)
| CallGetTickers
| CallGetTicker (params : JsValue).

Definition perform (c : Call) : Method JsValue :=
  match c with
  | CallGetOrderbook params => getOrderbook params
  | CallGetKline params => getKline params
  | CallGetTrades params => getTrades params
  | CallGetPairs => getPairs
  | CallGetPair params => getPair params
  | CallGetTickers => getTickers
  | CallGetTicker params => getTicker params
  end.

(* ===================================================================== *)
(** ** Observing a computation *)
(* ===================================================================== *)

(** The request a computation is waiting on, if it is waiting. *)
Definition request_of {A : Type} (m : Async A) : option Request.t :=
  match m with
  | Done _ => None
  | AxiosGet req _ => Some req
  end.

(** The result of a computation that issues a request and, once the
    transport has settled it with [s], finishes without asking again. *)
Definition outcome_on {A : Type} (m : Async A) (s : Settled) : option A :=
  match m with
  | Done _ => None
  | AxiosGet _ k =>
      match k s with
      | Done a => Some a
      | AxiosGet _ _ => None
      end
  end.

(** Running against a transport. The transport answers each request from
    the state of the world and moves the world on; the log keeps every
    request with its answer, in order. *)
Section Running.

Variable World : Type.
Variable transport : Request.t -> World -> Settled * World.

Fixpoint run {A : Type} (m : Async A) (w : World)
  : A * World * list (Request.t * Settled) :=
  match m with
  | Done a => (a, w, [])
  | AxiosGet req k =>
      let (s, w1) := transport req w in
      let '(a, w2, log) := run (k s) w1 in
      (a, w2, (req, s) :: log)
  end.

(** A caller that makes the calls one after the other on one client,
    awaiting each and going on after a throw. *)
Fixpoint run_calls (calls : list Call) (this : PublicRestClient.t) (w : World)
  : list (Completion JsValue) * PublicRestClient.t * World
    * list (Request.t * Settled) :=
  match calls with
  | [] => ([], this, w, [])
  | c :: rest =>
      let '((out, this1), w1, log1) := run (perform c this) w in
      let '(outs, this2, w2, log2) := run_calls rest this1 w1 in
      (out :: outs, this2, w2, (log1 ++ log2)%list)
  end.

End Running.

(* ===================================================================== *)
(** ** Definitions on the side of the specification *)
(* ===================================================================== *)

(** The status check, as the specification words it: the body on status
    200, the response itself thrown on any other status; a rejection of the
    transport is passed on. *)
Definition settle (s : Settled) : Completion JsValue :=
  match s with
  | Fulfilled r =>
      if AxiosResponse.status r =? 200
      then Returns (AxiosResponse.data r)
      else Throws (ThrownResponse r)
  | Rejected reason => Throws (ThrownReason reason)
  end.

(** The path of each endpoint, as the specification lists them. *)
Definition endpoint_path (c : Call) : string :=
  match c with
  | CallGetOrderbook _ => "/api/book"
  | CallGetKline _ => "/v1/market/kline"
  | CallGetTrades _ => "/api/trades"
  | CallGetPairs => "/api/pairs"
  | CallGetPair _ => "/api/pair"
  | CallGetTickers => "/api/tickers"
  | CallGetTicker _ => "/api/ticker"
  end.

(** The base URL of each endpoint, as the specification lists them: the
    kline service for klines, the main API for the rest. *)
Definition endpoint_base (c : Call) (this : PublicRestClient.t) : string :=
  match c with
  | CallGetKline _ => PublicRestClient.klineUrl this
  | _ => PublicRestClient.baseUrl this
  end.

(** The query parameters the caller supplied with a call. *)
Definition supplied_params (c : Call) : JsValue :=
  match c with
  | CallGetOrderbook p | CallGetKline p | CallGetTrades p
  | CallGetPair p | CallGetTicker p => p
  | CallGetPairs | CallGetTickers => JsUndefined
  end.

(** The one request the specification expects of a call. *)
Definition expected_request (c : Call) (this : PublicRestClient.t) : Request.t :=
  {| Request.instance := PublicRestClient.axiosInstance this;
     Request.url := endpoint_path c;
     Request.config :=
       {| AxiosRequestConfig.method := "get";
          AxiosRequestConfig.baseURL := endpoint_base c this;
          AxiosRequestConfig.headers := [("Content-Type", "application/json")];
          AxiosRequestConfig.params := supplied_params c |} |}.

(** A helper with the base URL as a parameter, as the refinement claim
    proposes: [select] picks the URL from the object. *)
Definition getWithUrl (select : PublicRestClient.t -> string)
    (path : string) (params : JsValue) : Method JsValue :=
  this <- get_this ;;
  axiosResponse <-
    await_get (PublicRestClient.axiosInstance this) path
      {| AxiosRequestConfig.method := "get";
         AxiosRequestConfig.baseURL := select this;
         AxiosRequestConfig.headers := [("Content-Type", "application/json")];
         AxiosRequestConfig.params := params |} ;;
  if AxiosResponse.status axiosResponse =? 200
  then ret (AxiosResponse.data axiosResponse)
  else throw (ThrownResponse axiosResponse).

(** The client with [baseUrl] replaced. *)
Definition with_baseUrl (u : string) (this : PublicRestClient.t)
  : PublicRestClient.t :=
  {| PublicRestClient.config := PublicRestClient.config this;
     PublicRestClient.axiosInstance := PublicRestClient.axiosInstance this;
     PublicRestClient.baseUrl := u;
     PublicRestClient.klineUrl := PublicRestClient.klineUrl this |}.

(** The parts of what [run] and [run_calls] give back. *)
Definition run_log {A W : Type} (x : A * W * list (Request.t * Settled))
  : list (Request.t * Settled) := snd x.

Definition calls_outcomes {W : Type}
    (x : list (Completion JsValue) * PublicRestClient.t * W
         * list (Request.t * Settled))
  : list (Completion JsValue) := fst (fst (fst x)).

Definition calls_client {W : Type}
    (x : list (Completion JsValue) * PublicRestClient.t * W
         * list (Request.t * Settled))
  : PublicRestClient.t := snd (fst (fst x)).

(** What a computation makes of the answer, without the object. *)
Definition completion_on {A : Type}
    (m : Async (Completion A * PublicRestClient.t)) (s : Settled)
  : option (Completion A) :=
  option_map fst (outcome_on m s).

(** Where a computation sends its request: base URL and path. *)
Definition request_target {A : Type} (m : Async A) : option (string * string) :=
  option_map
    (fun req =>
       (AxiosRequestConfig.baseURL (Request.config req), Request.url req))
    (request_of m).

(** The query parameters of the request of a computation. *)
Definition request_params {A : Type} (m : Async A) : option JsValue :=
  option_map (fun req => AxiosRequestConfig.params (Request.config req))
    (request_of m).

(* ===================================================================== *)
(** ** Sample data, after the test suite of the repository *)
(* ===================================================================== *)

Definition testPair : string := "LCX/USDC".

Definition default_client : PublicRestClient.t := constructor None None.

Definition sample_trades_call : Call :=
  CallGetTrades (JsObject [("pair", JsString testPair);
                           ("offset", JsNumber 1%float)]).

Definition sample_kline_call : Call :=
  CallGetKline (JsObject [("pair", JsString testPair);
                          ("resolution", JsString "1");
                          ("from", JsNumber 1700000000%float);
                          ("to", JsNumber 1700003600%float)]).

Definition sample_body : JsValue :=
  JsObject [("status", JsString "success");
            ("message", JsString "Successfully Api response");
            ("count", JsNumber 0%float);
            ("data", JsArray [])].

Definition sample_response (code : Z) (body : JsValue) : AxiosResponse.t :=
  {| AxiosResponse.data := body;
     AxiosResponse.status := code;
     AxiosResponse.statusText := "";
     AxiosResponse.headers := [];
     AxiosResponse.config :=
       Request.config (expected_request CallGetPairs default_client) |}.

(** A transport that answers the n-th request with the n-th entry of a
    script, and rejects once the script is used up. *)
Definition scripted (req : Request.t) (script : list Settled)
  : Settled * list Settled :=
  match script with
  | [] => (Rejected (JsString "Network Error"), [])
  | s :: rest => (s, rest)
  end.

(* ===================================================================== *)
(** ** The test suite "Public Endpoints" *)
(* ===================================================================== *)

(** How a test case ends. *)
Inductive Verdict : Type :=
| Passed
| Failed.

(** [expect(received).toBeDefined()] holds unless [received] is
    [undefined]. *)
Definition toBeDefined (received : JsValue) : bool :=
  match received with
  | JsUndefined => false
  | _ => true
  end.

(** [expect(received).toBe(expected)] for a string [expected]: the same
    string. *)
Definition toBe_string (received : JsValue) (expected : string) : bool :=
  match received with
  | JsString s => String.eqb s expected
  | _ => false
  end.

(** [v.key] as an expression: a TypeError ([None]) on [undefined] and
    [null], the property otherwise. *)
Definition member (v : JsValue) (key : string) : option JsValue :=
  match v with
  | JsUndefined | JsNull => None
  | _ => Some (get_prop v key)
  end.

(** The three expectations every test case has on the awaited response;
    the first that does not hold, or a TypeError, fails the test. *)
Definition expectations (response : JsValue) : Verdict :=
  if negb (toBeDefined response) then Failed
  else
    match member response "status" with
    | None => Failed
    | Some response_status =>
        if negb (toBe_string response_status "success") then Failed
        else
          match member response "data" with
          | None => Failed
          | Some response_data =>
              if negb (toBeDefined response_data) then Failed else Passed
          end
    end.

(** A test case: await the operation on the client of the suite, then
    check the expectations; a throw of the operation fails the test. *)
Definition test_case (operation : Method JsValue)
    (restClient : PublicRestClient.t) : Async Verdict :=
  Async_bind (operation restClient)
    (fun r =>
       match fst r with
       | Returns response => Done (expectations response)
       | Throws _ => Done Failed
       end).

(** The suite, with its client [new PublicRestClient()] and its pair.
    [now_s] is what [Math.floor(Date.now() / 1000)] gave the kline test. *)
Definition public_endpoints_suite (now_s : number)
  : list (string * Async Verdict) :=
  let restClient := constructor None None in
  let testPair := "LCX/USDC" in
  [ ("getOrderbook()",
     test_case
       (getOrderbook (JsObject [("pair", JsString testPair)]))
       restClient);
    ("getKline()",
     let to := now_s in
     test_case
       (getKline (JsObject [("pair", JsString testPair);
                            ("resolution", JsString "1");
                            ("from", JsNumber (to - 60 * 60)%float);
                            ("to", JsNumber to)]))
       restClient);
    ("getTrades()",
     test_case
       (getTrades (JsObject [("pair", JsString testPair);
                             ("offset", JsNumber 1%float)]))
       restClient);
    ("getPairs()", test_case getPairs restClient);
    ("getPair()",
     test_case (getPair (JsObject [("pair", JsString testPair)])) restClient);
    ("getTickers()", test_case getTickers restClient);
    ("getTicker()",
     test_case (getTicker (JsObject [("pair", JsString testPair)]))
       restClient) ].

(* ===================================================================== *)
(** ** The two helpers *)
(* ===================================================================== *)

Lemma getWithUrl_request select path params this :
  request_of (getWithUrl select path params this)
  = Some {| Request.instance := PublicRestClient.axiosInstance this;
            Request.url := path;
            Request.config :=
              {| AxiosRequestConfig.method := "get";
                 AxiosRequestConfig.baseURL := select this;
                 AxiosRequestConfig.headers :=
                   [("Content-Type", "application/json")];
                 AxiosRequestConfig.params := params |} |}.
Proof. reflexivity. Qed.

Lemma getWithUrl_outcome select path params this s :
  outcome_on (getWithUrl select path params this) s = Some (settle s, this).
Proof.
  destruct s as [r | reason]; cbn; [ | reflexivity ].
  destruct (AxiosResponse.status r =? 200); reflexivity.
Qed.

Lemma getWithBaseUrl_unfold path params :
  getWithBaseUrl path params = getWithUrl PublicRestClient.baseUrl path params.
Proof. reflexivity. Qed.

Lemma getWithKlineUrl_unfold path params :
  getWithKlineUrl path params = getWithUrl PublicRestClient.klineUrl path params.
Proof. reflexivity. Qed.

(** Every public operation is one request, the expected one, and then the
    status check; the object is left as it was. *)
Lemma perform_request c this :
  request_of (perform c this) = Some (expected_request c this).
Proof. destruct c; reflexivity. Qed.

Lemma perform_outcome c this s :
  outcome_on (perform c this) s = Some (settle s, this).
Proof.
  destruct c; cbn [perform];
    unfold getOrderbook, getKline, getTrades, getPairs, getPair, getTickers,
      getTicker;
    rewrite ?getWithBaseUrl_unfold, ?getWithKlineUrl_unfold;
    apply getWithUrl_outcome.
Qed.

(* ===================================================================== *)
(** ** Running the operations *)
(* ===================================================================== *)

Section RunningFacts.

Variable World : Type.
Variable transport : Request.t -> World -> Settled * World.

(** A computation of one request runs as one exchange with the
    transport. *)
Lemma run_one_request {A : Type} (m : Async A) req (f : Settled -> A) :
  request_of m = Some req ->
  (forall s, outcome_on m s = Some (f s)) ->
  forall w,
    run transport m w
    = (f (fst (transport req w)), snd (transport req w),
       [(req, fst (transport req w))]).
Proof.
  destruct m as [a | req' k]; cbn; intros Hreq Hout w; [ discriminate | ].
  injection Hreq as ->.
  destruct (transport req w) as [s w1]; cbn.
  specialize (Hout s).
  destruct (k s) as [a | ? ?]; [ | discriminate ].
  injection Hout as ->. reflexivity.
Qed.

Lemma run_perform c this w :
  run transport (perform c this) w
  = ((settle (fst (transport (expected_request c this) w)), this),
     snd (transport (expected_request c this) w),
     [(expected_request c this,
       fst (transport (expected_request c this) w))]).
Proof.
  apply run_one_request with (f := fun s => (settle s, this)).
  - apply perform_request.
  - intros s. apply perform_outcome.
Qed.

(** A sequence of calls: the object never changes, each call is one
    exchange, and each outcome is the status check of its own answer. *)
Lemma run_calls_spec calls : forall this w,
  let x := run_calls transport calls this w in
  calls_client x = this
  /\ map fst (run_log x) = map (fun c => expected_request c this) calls
  /\ calls_outcomes x = map (fun e => settle (snd e)) (run_log x).
Proof.
  induction calls as [ | c rest IH]; intros this w; cbn.
  - repeat split.
  - rewrite run_perform.
    specialize (IH this (snd (transport (expected_request c this) w))).
    destruct (run_calls transport rest this
                (snd (transport (expected_request c this) w)))
      as [[[outs this2] w2] log2].
    cbn in IH |- *. destruct IH as (-> & Hreq & ->).
    unfold run_log in Hreq. cbn in Hreq. rewrite Hreq.
    repeat split.
Qed.

End RunningFacts.

(* ===================================================================== *)
(** ** The operations on the sample data *)
(* ===================================================================== *)

Example sample_trades_request :
  request_of (perform sample_trades_call default_client)
  = Some {| Request.instance := {| AxiosInstance.defaults := None |};
            Request.url := "/api/trades";
            Request.config :=
              {| AxiosRequestConfig.method := "get";
                 AxiosRequestConfig.baseURL := "https://exchange-api.lcx.com/";
                 AxiosRequestConfig.headers :=
                   [("Content-Type", "application/json")];
                 AxiosRequestConfig.params :=
                   JsObject [("pair", JsString "LCX/USDC");
                             ("offset", JsNumber 1%float)] |} |}.
Proof. reflexivity. Qed.

Example sample_kline_target :
  request_target (perform sample_kline_call default_client)
  = Some ("https://api-kline.lcx.com/", "/v1/market/kline").
Proof. reflexivity. Qed.

Example sample_run :
  run_calls scripted [sample_trades_call; CallGetPairs; CallGetTickers]
    default_client
    [Fulfilled (sample_response 200 sample_body);
     Fulfilled (sample_response 404 JsNull)]
  = ([Returns sample_body;
      Throws (ThrownResponse (sample_response 404 JsNull));
      Throws (ThrownReason (JsString "Network Error"))],
     default_client,
     [],
     [(expected_request sample_trades_call default_client,
       Fulfilled (sample_response 200 sample_body));
      (expected_request CallGetPairs default_client,
       Fulfilled (sample_response 404 JsNull));
      (expected_request CallGetTickers default_client,
       Rejected (JsString "Network Error"))]).
Proof. reflexivity. Qed.

(** The object a method leaves behind is part of what is observed: a
    method that assigned to a field would be seen to. *)
Example assignment_is_observed :
  outcome_on
    (bind (set_this (with_baseUrl "http://localhost/" default_client))
       (fun _ => getPairs) default_client)
    (Fulfilled (sample_response 200 sample_body))
  = Some (Returns sample_body, with_baseUrl "http://localhost/" default_client)
  /\ with_baseUrl "http://localhost/" default_client <> default_client.
Proof. split; [ reflexivity | discriminate ]. Qed.

(** The object of the caller goes out as written: keys in the caller's
    order, a key no interface names, a resolution that is no
    [KlineTimeframe]. *)
Example caller_object_goes_out_as_written :
  request_params
    (getTrades (JsObject [("offset", JsNumber 2%float);
                          ("pair", JsString testPair);
                          ("limit", JsNumber 10%float)]) default_client)
  = Some (JsObject [("offset", JsNumber 2%float);
                    ("pair", JsString testPair);
                    ("limit", JsNumber 10%float)])
  /\ ~ In "2" KlineTimeframe
  /\ option_map (fun sent => get_prop sent "resolution")
       (request_params
          (getKline (JsObject [("pair", JsString testPair);
                               ("resolution", JsString "2")]) default_client))
     = Some (JsString "2").
Proof.
  repeat split. cbn. intros H.
  repeat (destruct H as [H | H]; [ discriminate H | ]). exact H.
Qed.

(** axios at its defaults resolves with 200 and 201 and rejects 404 and
    500, each with its code. *)
Example axios_defaults_on_sample_statuses :
  axios_settle (sample_response 200 sample_body)
  = Fulfilled (sample_response 200 sample_body)
  /\ axios_settle (sample_response 201 JsNull)
     = Fulfilled (sample_response 201 JsNull)
  /\ get_prop (AxiosError (sample_response 404 JsNull)) "message"
     = JsString "Request failed with status code 404"
  /\ get_prop (AxiosError (sample_response 404 JsNull)) "code"
     = JsString "ERR_BAD_REQUEST"
  /\ get_prop (AxiosError (sample_response 500 JsNull)) "code"
     = JsString "ERR_BAD_RESPONSE"
  /\ get_prop (get_prop (AxiosError (sample_response 404 JsNull)) "response")
       "status"
     = JsNumber 404%float.
Proof. repeat split. Qed.

Example sample_envelope :
  ApiResponse.of_js sample_body
  = Some {| ApiResponse.data := JsArray [];
            ApiResponse.count := Some 0%float;
            ApiResponse.message := "Successfully Api response";
            ApiResponse.status := "success" |}.
Proof. reflexivity. Qed.

(* ===================================================================== *)
(** ** Properties of the client *)
(* ===================================================================== *)

(** C1. For every public operation with any arguments, on any client, and
    for every response the transport resolves with, the call returns the
    body of the response if and only if the status code is 200, and for
    every other status code it throws. *)
Theorem returns_body_iff_status_200 (c : Call) (this : PublicRestClient.t)
    (r : AxiosResponse.t) :
  (completion_on (perform c this) (Fulfilled r)
   = Some (Returns (AxiosResponse.data r))
   <-> AxiosResponse.status r = 200)
  /\ (AxiosResponse.status r <> 200 ->
      exists e, completion_on (perform c this) (Fulfilled r) = Some (Throws e)).
Proof.
  unfold completion_on. rewrite perform_outcome. cbn.
  destruct (Z.eqb_spec (AxiosResponse.status r) 200) as [Heq | Hneq].
  - split; [ split; auto | intros Hneq; contradiction ].
  - split.
    + split; [ intros H; discriminate H | intros Heq; contradiction ].
    + intros _. eexists. reflexivity.
Qed.




(** C3. Each public operation sends its request to its fixed path against
    its base URL: the six market endpoints against the main base URL of the
    client, and getKline alone against the kline base URL. *)
Theorem operations_target_their_endpoints (this : PublicRestClient.t) :
  (forall p, request_target (getOrderbook p this)
             = Some (PublicRestClient.baseUrl this, "/api/book"))
  /\ (forall p, request_target (getTrades p this)
                = Some (PublicRestClient.baseUrl this, "/api/trades"))
  /\ request_target (getPairs this)
     = Some (PublicRestClient.baseUrl this, "/api/pairs")
  /\ (forall p, request_target (getPair p this)
                = Some (PublicRestClient.baseUrl this, "/api/pair"))
  /\ request_target (getTickers this)
     = Some (PublicRestClient.baseUrl this, "/api/tickers")
  /\ (forall p, request_target (getTicker p this)
                = Some (PublicRestClient.baseUrl this, "/api/ticker"))
  /\ (forall p, request_target (getKline p this)
                = Some (PublicRestClient.klineUrl this, "/v1/market/kline")).
Proof. repeat split. Qed.

(** C4. The object given to getOrderbook, getKline, getTrades, getPair or
    getTicker is the query parameters of the one request of the call, as it
    is: both helpers hand on any value unchanged, each of the five
    operations hands its argument to its helper, and so the request has the
    keys of the caller's object, in their order, and under every key the
    value the caller put there ([offset] and [resolution] among them,
    whatever they are). *)
Theorem params_are_forwarded_unchanged (this : PublicRestClient.t)
    (params : JsValue) :
  (forall path, request_params (getWithBaseUrl path params this) = Some params)
  /\ (forall path,
        request_params (getWithKlineUrl path params this) = Some params)
  /\ request_params (getOrderbook params this) = Some params
  /\ request_params (getKline params this) = Some params
  /\ request_params (getTrades params this) = Some params
  /\ request_params (getPair params this) = Some params
  /\ request_params (getTicker params this) = Some params
  /\ (forall (World : Type)
             (transport : Request.t -> World -> Settled * World) (w : World)
             (operation : JsValue -> Method JsValue),
        In operation [getOrderbook; getKline; getTrades; getPair; getTicker] ->
        map (fun e => AxiosRequestConfig.params (Request.config (fst e)))
          (run_log (run transport (operation params this) w))
        = [params])
  /\ (forall (operation : JsValue -> Method JsValue) (sent : JsValue),
        In operation [getOrderbook; getKline; getTrades; getPair; getTicker] ->
        request_params (operation params this) = Some sent ->
        own_keys sent = own_keys params
        /\ forall key, get_prop sent key = get_prop params key).
Proof.
  repeat match goal with
         | |- _ /\ _ => split
         end;
    try (intros; reflexivity).
  - intros World transport w operation Hin. cbn in Hin.
    destruct Hin as [<- | [<- | [<- | [<- | [<- | []]]]]].
    + change (getOrderbook params this)
        with (perform (CallGetOrderbook params) this).
      rewrite run_perform. reflexivity.
    + change (getKline params this) with (perform (CallGetKline params) this).
      rewrite run_perform. reflexivity.
    + change (getTrades params this)
        with (perform (CallGetTrades params) this).
      rewrite run_perform. reflexivity.
    + change (getPair params this) with (perform (CallGetPair params) this).
      rewrite run_perform. reflexivity.
    + change (getTicker params this)
        with (perform (CallGetTicker params) this).
      rewrite run_perform. reflexivity.
  - intros operation sent Hin Hsent. cbn in Hin.
    destruct Hin as [<- | [<- | [<- | [<- | [<- | []]]]]];
      cbn in Hsent; injection Hsent as <-; split; reflexivity.
Qed.

(** C5. On a response of status 200 the value a public operation returns
    is the body of the response, exactly: whatever envelope the body is
    (status, message, optional count, data), the returned value is the same
    envelope, and every property read from it is the property of the
    body. *)
Theorem status_200_returns_body_unmodified (c : Call)
    (this : PublicRestClient.t) (r : AxiosResponse.t) :
  AxiosResponse.status r = 200 ->
  exists v,
    completion_on (perform c this) (Fulfilled r) = Some (Returns v)
    /\ v = AxiosResponse.data r
    /\ ApiResponse.of_js v = ApiResponse.of_js (AxiosResponse.data r)
    /\ own_keys v = own_keys (AxiosResponse.data r)
    /\ forall key, get_prop v key = get_prop (AxiosResponse.data r) key.
Proof.
  intros H200. exists (AxiosResponse.data r).
  unfold completion_on. rewrite perform_outcome. cbn.
  rewrite H200. cbn. repeat split.
Qed.

Lemma status_200_returns_body_unmodified_witness :
  exists v,
    completion_on (perform sample_trades_call default_client)
      (Fulfilled (sample_response 200 sample_body)) = Some (Returns v)
    /\ v = sample_body
    /\ ApiResponse.of_js v = ApiResponse.of_js sample_body
    /\ own_keys v = own_keys sample_body
    /\ forall key, get_prop v key = get_prop sample_body key.
Proof.
  apply (status_200_returns_body_unmodified sample_trades_call default_client
           (sample_response 200 sample_body)).
  reflexivity.
Defined.

(** C6. A client constructed without a config has the main base URL
    "https://exchange-api.lcx.com/" and the kline base URL
    "https://api-kline.lcx.com/"; a URL given in the config replaces the
    default of its own field, a URL left out keeps it; and every request
    of every later call on that client carries one of these two URLs, the
    one of its endpoint. *)
Theorem base_urls_default_and_override :
  (forall ax,
      PublicRestClient.baseUrl (constructor None ax)
      = "https://exchange-api.lcx.com/"
      /\ PublicRestClient.klineUrl (constructor None ax)
         = "https://api-kline.lcx.com/")
  /\ (forall u k ax,
        PublicRestClient.baseUrl
          (constructor (Some {| PublicRestClientConfig.baseUrl := Some u;
                                PublicRestClientConfig.klineUrl := k |}) ax)
        = u)
  /\ (forall b u ax,
        PublicRestClient.klineUrl
          (constructor (Some {| PublicRestClientConfig.baseUrl := b;
                                PublicRestClientConfig.klineUrl := Some u |}) ax)
        = u)
  /\ (forall k ax,
        PublicRestClient.baseUrl
          (constructor (Some {| PublicRestClientConfig.baseUrl := None;
                                PublicRestClientConfig.klineUrl := k |}) ax)
        = "https://exchange-api.lcx.com/")
  /\ (forall b ax,
        PublicRestClient.klineUrl
          (constructor (Some {| PublicRestClientConfig.baseUrl := b;
                                PublicRestClientConfig.klineUrl := None |}) ax)
        = "https://api-kline.lcx.com/")
  /\ (forall (World : Type) (transport : Request.t -> World -> Settled * World)
             cfg ax calls w,
        map (fun e => AxiosRequestConfig.baseURL (Request.config (fst e)))
          (run_log (run_calls transport calls (constructor cfg ax) w))
        = map (fun c => endpoint_base c (constructor cfg ax)) calls).
Proof.
  repeat match goal with
         | |- _ /\ _ => split
         end;
    try (intros; reflexivity); try (intros; split; reflexivity).
  intros World transport cfg ax calls w.
  destruct (run_calls_spec transport calls (constructor cfg ax) w)
    as (_ & Hreq & _).
  rewrite <- (map_map fst
                (fun req => AxiosRequestConfig.baseURL (Request.config req))).
  rewrite Hreq, map_map. reflexivity.
Qed.

(** C7. No public operation changes the client: after any sequence of
    calls on one client the object is the one the sequence started with,
    also when calls threw; a single call leaves the object as it was
    however the transport settles; and the outcome of each call is decided
    by the answer to its own request, whatever the client and whatever
    came before. *)
Theorem calls_leave_client_unchanged (World : Type)
    (transport : Request.t -> World -> Settled * World)
    (calls : list Call) (this : PublicRestClient.t) (w : World) :
  calls_client (run_calls transport calls this w) = this
  /\ calls_outcomes (run_calls transport calls this w)
     = map (fun e => settle (snd e))
         (run_log (run_calls transport calls this w))
  /\ length (run_log (run_calls transport calls this w)) = length calls
  /\ (forall c s, exists out, outcome_on (perform c this) s = Some (out, this))
  /\ (forall c other s,
        completion_on (perform c other) s = completion_on (perform c this) s).
Proof.
  destruct (run_calls_spec transport calls this w) as (Hthis & Hreq & Houts).
  repeat split.
  - exact Hthis.
  - exact Houts.
  - rewrite <- (length_map fst), Hreq. apply length_map.
  - intros c s. exists (settle s). apply perform_outcome.
  - intros c other s. unfold completion_on.
    rewrite !perform_outcome. reflexivity.
Qed.

(** C8. Every call of a public operation makes exactly one request to
    the transport, through [get] and with the method "get", and the request
    carries the header "Content-Type: application/json". *)
Theorem one_get_request_with_json_content_type (World : Type)
    (transport : Request.t -> World -> Settled * World)
    (c : Call) (this : PublicRestClient.t) (w : World) :
  exists req s,
    run_log (run transport (perform c this) w) = [(req, s)]
    /\ AxiosRequestConfig.method (Request.config req) = "get"
    /\ AxiosRequestConfig.headers (Request.config req)
       = [("Content-Type", "application/json")].
Proof.
  rewrite run_perform. cbn.
  eexists. eexists. repeat split.
Qed.

(** C9. The two private helpers are one helper with the base URL as a
    parameter: each is that helper at its own URL, and getWithKlineUrl on a
    client sends the request and ends the way getWithBaseUrl does on the
    same client with baseUrl replaced by klineUrl. *)
Theorem helpers_differ_only_in_base_url (path : string) (params : JsValue)
    (this : PublicRestClient.t) :
  getWithBaseUrl path params = getWithUrl PublicRestClient.baseUrl path params
  /\ getWithKlineUrl path params
     = getWithUrl PublicRestClient.klineUrl path params
  /\ request_of (getWithKlineUrl path params this)
     = request_of
         (getWithBaseUrl path params
            (with_baseUrl (PublicRestClient.klineUrl this) this))
  /\ (forall s,
        completion_on (getWithKlineUrl path params this) s
        = completion_on
            (getWithBaseUrl path params
               (with_baseUrl (PublicRestClient.klineUrl this) this)) s)
  /\ (forall s,
        outcome_on (getWithKlineUrl path params this) s = Some (settle s, this)
        /\ outcome_on
             (getWithBaseUrl path params
                (with_baseUrl (PublicRestClient.klineUrl this) this)) s
           = Some (settle s,
                   with_baseUrl (PublicRestClient.klineUrl this) this)).
Proof.
  split; [ reflexivity | ].
  split; [ reflexivity | ].
  split; [ reflexivity | ].
  split.
  - intros s. unfold completion_on.
    rewrite getWithKlineUrl_unfold, getWithBaseUrl_unfold.
    rewrite !getWithUrl_outcome. reflexivity.
  - intros s. rewrite getWithKlineUrl_unfold, getWithBaseUrl_unfold.
    split; apply getWithUrl_outcome.
Qed.

(** C10. getPairs and getTickers send their request without query
    parameters from the caller: the params of the request is [undefined],
    which has no key, on every client. *)
Theorem pairs_and_tickers_send_no_params (this : PublicRestClient.t) :
  request_params (getPairs this) = Some JsUndefined
  /\ request_params (getTickers this) = Some JsUndefined
  /\ own_keys JsUndefined = [].
Proof. repeat split. Qed.

(* ===================================================================== *)
(** ** Further properties of the client and of its test suite *)
(* ===================================================================== *)

(** The expectations hold exactly for a value whose [status] is the
    string "success" and whose [data] is defined. *)
Lemma expectations_passed v :
  expectations v = Passed
  <-> get_prop v "status" = JsString "success"
      /\ get_prop v "data" <> JsUndefined.
Proof.
  unfold expectations, member.
  destruct v as [ | | b | n | s | items | props ];
    cbn [toBeDefined negb];
    try (cbn; split; [ intros H; discriminate H
                     | intros [H _]; discriminate H ]).
  destruct (get_prop (JsObject props) "status") as [ | | ? | ? | st | ? | ? ];
    cbn [toBe_string negb];
    try (split; [ intros H; discriminate H | intros [H _]; discriminate H ]).
  destruct (String.eqb_spec st "success") as [-> | Hne]; cbn [negb].
  - destruct (get_prop (JsObject props) "data"); cbn [toBeDefined negb];
      split; try (intros H; discriminate H);
      try (intros _; split; [ reflexivity | discriminate ]);
      try (intros _; reflexivity).
    intros [_ H]. contradiction H. reflexivity.
  - split; [ intros H; discriminate H | intros [H _] ].
    injection H as H. contradiction.
Qed.

Lemma expectations_decided v : expectations v = Passed \/ expectations v = Failed.
Proof. destruct (expectations v); [ left | right ]; reflexivity. Qed.

(** A test case ends on the answer to the one request of its operation. *)
Lemma test_case_outcome operation this s out :
  outcome_on (operation this) s = Some out ->
  outcome_on (test_case operation this) s
  = Some match fst out with
         | Returns response => expectations response
         | Throws _ => Failed
         end.
Proof.
  unfold test_case.
  destruct (operation this) as [a | req k]; cbn; [ discriminate | ].
  destruct (k s) as [a | ? ?]; [ | discriminate ].
  intros H. injection H as ->. cbn.
  destruct (fst out); reflexivity.
Qed.

Lemma test_case_verdict c this s :
  (outcome_on (test_case (perform c) this) s = Some Passed
   \/ outcome_on (test_case (perform c) this) s = Some Failed)
  /\ (outcome_on (test_case (perform c) this) s = Some Passed
      <-> exists r,
          s = Fulfilled r
          /\ AxiosResponse.status r = 200
          /\ get_prop (AxiosResponse.data r) "status" = JsString "success"
          /\ get_prop (AxiosResponse.data r) "data" <> JsUndefined).
Proof.
  rewrite (test_case_outcome (perform c) this s (perform_outcome c this s)).
  cbn [fst]. destruct s as [r | reason]; cbn [settle].
  - destruct (Z.eqb_spec (AxiosResponse.status r) 200) as [H200 | Hne].
    + split.
      * destruct (expectations_decided (AxiosResponse.data r)) as [-> | ->];
          [ left | right ]; reflexivity.
      * split.
        -- intros H. injection H as H. apply expectations_passed in H.
           exists r. repeat split; try apply H. exact H200.
        -- intros (r' & Hr & _ & Hst & Hdata). injection Hr as <-.
           f_equal. apply expectations_passed. split; assumption.
    + split; [ right; reflexivity | ].
      split; [ intros H; discriminate H | ].
      intros (r' & Hr & H200 & _). injection Hr as <-. contradiction.
  - split; [ right; reflexivity | ].
    split; [ intros H; discriminate H | ].
    intros (r' & Hr & _). discriminate Hr.
Qed.

(** The kline test asks for the hour before [now_s], at the one-minute
    timeframe, from the kline service. *)
Example kline_test_request :
  option_map request_of
    (option_map snd
       (nth_error (public_endpoints_suite 1700003600%float) 1))
  = Some (request_of (perform sample_kline_call default_client)).
Proof. reflexivity. Qed.

(** X1. A public operation throws the rejection reason of the transport
    exactly when the transport rejected the request with that reason: the
    rejection passes through unchanged, and nothing else is ever thrown as
    a reason. *)
Theorem transport_rejection_is_rethrown (c : Call) (this : PublicRestClient.t)
    (s : Settled) (reason : JsValue) :
  completion_on (perform c this) s = Some (Throws (ThrownReason reason))
  <-> s = Rejected reason.
Proof.
  unfold completion_on. rewrite perform_outcome. cbn.
  destruct s as [r | e]; cbn.
  - destruct (AxiosResponse.status r =? 200);
      split; intros H; discriminate H.
  - split; intros H; injection H as ->; reflexivity.
Qed.

(** X2. On one client, two calls send the same request exactly when they
    are the same operation with the same argument: the path of the request
    tells the operation, and its query parameters are the argument. *)
Theorem request_identifies_call (c1 c2 : Call) (this : PublicRestClient.t) :
  request_of (perform c1 this) = request_of (perform c2 this) <-> c1 = c2.
Proof.
  split; [ | intros ->; reflexivity ].
  rewrite !perform_request. intros H. injection H as Hpath _ Hparams.
  destruct c1, c2; cbn in Hpath, Hparams; try discriminate Hpath;
    try reflexivity; f_equal; assumption.
Qed.

(** X3. The answer of the transport is handled the same way by all seven
    operations: whichever operation was called, with whatever arguments
    and on whatever client, the same answer gives the same completion. *)
Theorem completion_is_uniform_across_operations (c1 c2 : Call)
    (this1 this2 : PublicRestClient.t) (s : Settled) :
  completion_on (perform c1 this1) s = completion_on (perform c2 this2) s.
Proof. unfold completion_on. rewrite !perform_outcome. reflexivity. Qed.

(** X4. Every test case of the suite "Public Endpoints" ends on the
    answer to its one request, and it passes exactly when the transport
    resolves with status code 200 and a body whose [status] is the string
    "success" and whose [data] is defined; any other answer fails it. *)
Theorem suite_passes_iff_success_envelope (now_s : number) (s : Settled) :
  Forall
    (fun test =>
       (outcome_on (snd test) s = Some Passed
        \/ outcome_on (snd test) s = Some Failed)
       /\ (outcome_on (snd test) s = Some Passed
           <-> exists r,
               s = Fulfilled r
               /\ AxiosResponse.status r = 200
               /\ get_prop (AxiosResponse.data r) "status"
                  = JsString "success"
               /\ get_prop (AxiosResponse.data r) "data" <> JsUndefined))
    (public_endpoints_suite now_s).
Proof.
  unfold public_endpoints_suite.
  repeat apply Forall_cons; [ .. | apply Forall_nil ]; cbn [snd].
  - apply (test_case_verdict (CallGetOrderbook _)).
  - apply (test_case_verdict (CallGetKline _)).
  - apply (test_case_verdict (CallGetTrades _)).
  - apply (test_case_verdict CallGetPairs).
  - apply (test_case_verdict (CallGetPair _)).
  - apply (test_case_verdict CallGetTickers).
  - apply (test_case_verdict (CallGetTicker _)).
Qed.

(** X6. The config a client stores is enough to make the client again:
    constructing from the stored config, with the same axios config, gives
    the same client, whether the first construction had a config or not. *)
Theorem client_rebuilt_from_stored_config
    (cfg : option PublicRestClientConfig.t) (ax : option JsValue) :
  constructor (Some (PublicRestClient.config (constructor cfg ax))) ax
  = constructor cfg ax.
Proof. destruct cfg as [[b k] | ]; reflexivity. Qed.

(** X7. In a sequence of calls on one client the requests reach the
    transport in the order of the calls, one for each call, and each is the
    request of its own call on that client: no answer and no throw of an
    earlier call changes a later request. *)
Theorem requests_follow_call_order (World : Type)
    (transport : Request.t -> World -> Settled * World)
    (calls : list Call) (this : PublicRestClient.t) (w : World) :
  map (fun e => Some (fst e)) (run_log (run_calls transport calls this w))
  = map (fun c => request_of (perform c this)) calls.
Proof.
  destruct (run_calls_spec transport calls this w) as (_ & Hreq & _).
  rewrite <- (map_map fst (@Some Request.t)), Hreq, map_map.
  apply map_ext. intros c. symmetry. apply perform_request.
Qed.
